(** * syft_hub.core.decorators: guards and call-context adapters

    A shallow embedding of [src/syft_hub/core/decorators.py]: the four
    decorators [ensure_syftbox_running], [require_account],
    [make_sync_wrapper] and [smart_async_wrapper], over a small model of the
    Python objects they inspect (instances with attributes, a class with a
    name, truthiness) and of the effects they have (raising, calling the
    wrapped function, awaiting a coroutine). *)

From Stdlib Require Import ZArith Lia SpecFloat.
From stdpp Require Import base option list strings gmap.

Open Scope Z_scope.

(** ** Python values *)

Definition loc := positive.

(** The values that arguments, attributes and results range over.  Instances
    live in a heap and are passed by reference, as in Python; the built-in
    containers are taken by what they hold.  A value of another built-in type
    goes as an instance of a class with the [__bool__] or [__len__] it has. *)
#[warnings="-register-all"]
Inductive value :=
| VNone
| VBool (b : bool)
| VInt (z : Z)
| VFloat (x : spec_float)
| VStr (s : string)
| VList (items : list value)
| VTuple (items : list value)
| VDict (items : list (value * value))
| VSet (items : list value)
| VRef (l : loc).

Definition kwargs := list (string * value).

(** ** Exceptions *)

Inductive exc_class :=
| TypeError
| AttributeError
| SyftBoxNotRunningError
| AuthenticationError
| OtherError (name : string).

Record exn := Exn {
  exc_type : exc_class;
  exc_msg : string
}.

Inductive outcome (A : Type) :=
| Return (a : A)
| Raise (e : exn).
Arguments Return {A} a.
Arguments Raise {A} e.

Definition outcome_map {A B} (f : A -> B) (r : outcome A) : outcome B :=
  match r with
  | Return a => Return (f a)
  | Raise e => Raise e
  end.

(** ** Classes and instances *)

(** A class, as far as this module looks at one: [__name__]; whether
    [isinstance(_, SyftClient)] holds for its instances (the class is
    [syft_core.Client] or derives from it); and the special methods
    [__bool__], [__len__] and [__await__], where the class has them, each as
    what it gives for an instance with the given attributes.  Special methods
    that write to the heap are outside the model. *)
Record pyclass := PyClass {
  cls_name : string;
  cls_is_syft_client : bool;
  cls_bool : option (gmap string value -> outcome bool);
  cls_len : option (gmap string value -> outcome Z);
  cls_await : option (gmap string value -> outcome value)
}.

(** A class with none of the special methods. *)
Definition plain_class (name : string) (is_syft_client : bool) : pyclass :=
  PyClass name is_syft_client None None None.

Record obj := Obj {
  obj_class : pyclass;
  obj_attrs : gmap string value
}.

(** What the decorators and the wrapped operations can see and change: the
    heap of instances and the set of paths that exist on disk. *)
Record world := World {
  heap : gmap loc obj;
  fs : gset string
}.

(** ** Effects

    A computation runs on a thread ([in_loop] tells whether an asyncio event
    loop is running on it), reads and writes the world, returns or raises,
    and leaves a trace of what it did to the wrapped function. *)

Inductive event :=
| EvCall (args : list value) (kw : kwargs)   (* the wrapped function was called *)
| EvAwait.                                   (* an [await] expression was reached *)

Definition M (A : Type) : Type :=
  bool -> world -> outcome A * world * list event.

#[global] Instance M_ret : MRet M :=
  fun A a _ w => (Return a, w, []).

#[global] Instance M_bind : MBind M :=
  fun A B k m in_loop w =>
    match m in_loop w with
    | (Return a, w1, t1) =>
        let '(r, w2, t2) := k a in_loop w1 in (r, w2, t1 ++ t2)
    | (Raise e, w1, t1) => (Raise e, w1, t1)
    end.

Definition raise {A} (cls : exc_class) (msg : string) : M A :=
  fun _ w => (Raise (Exn cls msg), w, []).

Definition tell (ev : event) : M unit :=
  fun _ w => (Return tt, w, [ev]).

Definition get_world : M world :=
  fun _ w => (Return w, w, []).

(** The computation that ends as [r], touching nothing. *)
Definition settle {A} (r : outcome A) : M A :=
  fun _ w => (r, w, []).

Definition result_of {A} (x : outcome A * world * list event) : outcome A := x.1.1.
Definition world_of {A} (x : outcome A * world * list event) : world := x.1.2.
Definition trace_of {A} (x : outcome A * world * list event) : list event := x.2.

(** ** Functions, coroutines and calls *)

(** A coroutine object: the body of an [async def], not started. *)
Definition coroutine := M value.

(** What a call evaluates to: a plain value, or an awaitable. *)
Inductive returned :=
| Direct (v : value)
| Awaitable (c : coroutine).

(** A Python function with the metadata the decorators read and write.
    [fn_async] is [asyncio.iscoroutinefunction]. *)
Record pyfunc := PyFunc {
  fn_name : string;
  fn_doc : option string;
  fn_async : bool;
  fn_call : list value -> kwargs -> M returned
}.

(** An [async def] with the given body: calling it runs nothing and
    returns the coroutine. *)
Definition async_def (name : string) (doc : option string)
    (body : list value -> kwargs -> M value) : pyfunc :=
  PyFunc name doc true (fun args kw => mret (Awaitable (body args kw))).

(** A plain [def] with the given body. *)
Definition def (name : string) (doc : option string)
    (body : list value -> kwargs -> M returned) : pyfunc :=
  PyFunc name doc false body.

(** The behaviour of a wrapped operation, seen from outside: from the
    arguments and the world to an outcome and a new world. *)
Definition behaviour := list value -> kwargs -> world -> outcome value * world.

Definition run_body (b : behaviour) (args : list value) (kw : kwargs) : M value :=
  fun _ w => let '(r, w') := b args kw w in (r, w', []).

(** An operation O with behaviour [b], asynchronous or not. *)
Definition operation (name : string) (doc : option string) (is_async : bool)
    (b : behaviour) : pyfunc :=
  if is_async then async_def name doc (run_body b)
  else def name doc (fun args kw => v ← run_body b args kw; mret (Direct v)).

Definition iscoroutinefunction (func : pyfunc) : bool := fn_async func.

(** A call of [func] written inside a wrapper. *)
Definition call (func : pyfunc) (args : list value) (kw : kwargs) : M returned :=
  tell (EvCall args kw);; fn_call func args kw.

(** ** Introspection primitives *)

Definition attrs_of (w : world) (v : value) : gmap string value :=
  match v with
  | VRef l => match heap w !! l with Some o => obj_attrs o | None => ∅ end
  | _ => ∅
  end.

(** [v.__class__.__name__] *)
Definition class_name (w : world) (v : value) : string :=
  match v with
  | VNone => "NoneType"
  | VBool _ => "bool"
  | VInt _ => "int"
  | VFloat _ => "float"
  | VStr _ => "str"
  | VList _ => "list"
  | VTuple _ => "tuple"
  | VDict _ => "dict"
  | VSet _ => "set"
  | VRef l => match heap w !! l with Some o => cls_name (obj_class o) | None => "object" end
  end.

(** [hasattr(v, name)] *)
Definition hasattr (w : world) (v : value) (name : string) : bool :=
  bool_decide (is_Some (attrs_of w v !! name)).

(** [getattr(v, name, dflt)] *)
Definition getattr_default (w : world) (v : value) (name : string) (dflt : value) : value :=
  default dflt (attrs_of w v !! name).

(** [v.name] *)
Definition getattr (v : value) (name : string) : M value :=
  w ← get_world;
  match attrs_of w v !! name with
  | Some x => mret x
  | None =>
      raise AttributeError
        ("'" +:+ class_name w v +:+ "' object has no attribute '" +:+ name +:+ "'")
  end.

(** [isinstance(v, SyftClient)] *)
Definition isinstance_SyftClient (w : world) (v : value) : bool :=
  match v with
  | VRef l => match heap w !! l with Some o => cls_is_syft_client (obj_class o) | None => false end
  | _ => false
  end.

(** [bool(v)], the truth value that [not v] and [if v] take: of an instance,
    what [__bool__] gives, or else whether [__len__] is not zero, or else
    true; it raises what the special method raises. *)
Definition truthy (w : world) (v : value) : outcome bool :=
  match v with
  | VNone => Return false
  | VBool b => Return b
  | VInt z => Return (negb (z =? 0))
  | VFloat x => Return (match x with S754_zero _ => false | _ => true end)
  | VStr s => Return (negb (String.eqb s ""))
  | VList items | VTuple items | VSet items =>
      Return (match items with [] => false | _ :: _ => true end)
  | VDict items => Return (match items with [] => false | _ :: _ => true end)
  | VRef l =>
      match heap w !! l with
      | Some o =>
          match cls_bool (obj_class o), cls_len (obj_class o) with
          | Some to_bool, _ => to_bool (obj_attrs o)
          | None, Some len =>
              match len (obj_attrs o) with
              | Return n =>
                  if n <? 0
                  then Raise (Exn (OtherError "ValueError") "__len__() should return >= 0")
                  else Return (negb (n =? 0))
              | Raise e => Raise e
              end
          | None, None => Return true
          end
      | None => Return true
      end
  end.

(** [not v] *)
Definition py_not (v : value) : M bool :=
  w ← get_world; settle (outcome_map negb (truthy w v)).

(** What [__await__] of [v] resolves to, when [v] is an instance of a class
    that has it. *)
Definition await_method (w : world) (v : value) : option (outcome value) :=
  match v with
  | VRef l =>
      match heap w !! l with
      | Some o =>
          match cls_await (obj_class o) with
          | Some resolve => Some (resolve (obj_attrs o))
          | None => None
          end
      | None => None
      end
  | _ => None
  end.

(** [await r] *)
Definition await (r : returned) : M value :=
  match r with
  | Awaitable c => tell EvAwait;; c
  | Direct v =>
      w ← get_world;
      match await_method w v with
      | Some resolved => tell EvAwait;; settle resolved
      | None =>
          raise TypeError
            ("object " +:+ class_name w v +:+ " can't be used in 'await' expression")
      end
  end.

(** ** Strings *)

(** The line feed, written [\n] in the source. *)
Definition LF : string :=
  String (Ascii.Ascii false true false true false false false false) "".

Fixpoint drop_str (n : nat) (s : string) : string :=
  match n, s with
  | O, _ => s
  | S k, String _ s' => drop_str k s'
  | S _, EmptyString => EmptyString
  end.

(** [old in s] *)
Fixpoint str_contains (old s : string) : bool :=
  String.prefix old s ||
  match s with
  | EmptyString => false
  | String _ s' => str_contains old s'
  end.

Fixpoint replace_from (fuel : nat) (old new s : string) : string :=
  match fuel with
  | O => s
  | S fuel' =>
      match s with
      | EmptyString => EmptyString
      | String c s' =>
          if String.prefix old s
          then new +:+ replace_from fuel' old new (drop_str (String.length old) s)
          else String c (replace_from fuel' old new s')
      end
  end.

(** [s.replace(old, new)] for a non-empty [old]: every occurrence of [old],
    found scanning from the left and not overlapping the one before it, is
    replaced by [new]. *)
Definition str_replace (old new s : string) : string :=
  replace_from (String.length s) old new s.

(** [part] occurs inside [s]. *)
Definition embeds (s part : string) : Prop :=
  exists before after, s = before +:+ part +:+ after.

(** [doc or ''] *)
Definition doc_or_empty (doc : option string) : string :=
  match doc with
  | Some d => d
  | None => ""
  end.

(** ** Collaborators *)

(** Modelled from the spec: the runtime client of [syft_core], which is not
    part of this repository; the spec gives it one capability, the readiness
    predicate "is my local endpoint present".  [my_datasite] is a path held
    by the client and [exists()] asks the file system for it. *)
Definition my_datasite_exists (syft_client : value) : M bool :=
  p ← getattr syft_client "my_datasite";
  w ← get_world;
  match p with
  | VStr path => mret (bool_decide (path ∈ fs w))
  | _ => raise AttributeError ("'" +:+ class_name w p +:+ "' object has no attribute 'exists'")
  end.

(** Modelled from the spec: [detect_async_context] of [utils/async_utils.py],
    which is missing from the sources: "a zero-argument, non-raising function
    reporting whether an asynchronous scheduler is currently driving the
    calling code". *)
Definition detect_async_context : M bool :=
  fun in_loop w => (Return in_loop, w, []).

(** Modelled from the spec: [run_async_in_thread] of [utils/async_utils.py],
    which is missing from the sources: "given an asynchronous operation, runs
    it to completion on a dedicated thread and returns its result or
    propagates its failure".  The worker thread has a scheduler of its own,
    whatever the calling thread has; the scheduler refuses what is not
    awaitable. *)
Definition run_async_in_thread (coro : returned) : M value :=
  match coro with
  | Awaitable c => fun _ w => c true w
  | Direct _ => raise TypeError "An asyncio.Future, a coroutine or an awaitable is required"
  end.

(** Binding of the parameters [(self, *args, **kwargs)] to the positional
    arguments of a call. *)
Definition with_self {A} (name : string)
    (f : value -> list value -> kwargs -> M A) (args : list value) (kw : kwargs) : M A :=
  match args with
  | self :: rest => f self rest kw
  | [] => raise TypeError (name +:+ "() missing 1 required positional argument: 'self'")
  end.

(** ** The decorators *)

Definition ensure_syftbox_running (func : pyfunc) : pyfunc :=
  let wrapper (args : list value) (kw : kwargs) : M value :=
    match args with
    | [] =>
        raise TypeError
          ("'" +:+ fn_name func +:+ "' must be called as a method (i.e., requires 'self').")
    | service_instance :: _ =>
        w ← get_world;
        invalid ←
          (if negb (hasattr w service_instance "syft_client") then mret true
           else c ← getattr service_instance "syft_client";
                mret (negb (isinstance_SyftClient w c)));
        if (invalid : bool) then
          raise AttributeError
            ("Service instance " +:+ class_name w service_instance
               +:+ " lacks a valid 'syft_client' attribute.")
        else
          syft_client ← getattr service_instance "syft_client";
          running ← my_datasite_exists syft_client;
          if negb running then
            raise SyftBoxNotRunningError
              "Local SyftBox is not running. Cannot send RPC request."
          else
            r ← call func args kw;
            await r
    end in
  async_def (fn_name func) (fn_doc func) wrapper.

Definition account_setup_required : string :=
  "Account setup required before using services. "
  +:+ "Please run: await client.setup_accounting(email, password)".

Definition require_account (func : pyfunc) : pyfunc :=
  let async_wrapper (self : value) (args : list value) (kw : kwargs) : M value :=
    w ← get_world;
    refuse ← py_not (getattr_default w self "_account_configured" (VBool false));
    if (refuse : bool) then
      raise AuthenticationError account_setup_required
    else
      r ← call func (self :: args) kw;
      await r in
  let sync_wrapper (self : value) (args : list value) (kw : kwargs) : M returned :=
    w ← get_world;
    refuse ← py_not (getattr_default w self "_account_configured" (VBool false));
    if (refuse : bool) then
      raise AuthenticationError account_setup_required
    else
      call func (self :: args) kw in
  if iscoroutinefunction func
  then async_def (fn_name func) (fn_doc func) (with_self "async_wrapper" async_wrapper)
  else def (fn_name func) (fn_doc func) (with_self "sync_wrapper" sync_wrapper).

Definition make_sync_wrapper (async_method : pyfunc) : pyfunc :=
  let sync_wrapper (self : value) (args : list value) (kw : kwargs) : M returned :=
    c ← call async_method (self :: args) kw;
    v ← run_async_in_thread c;
    mret (Direct v) in
  def (fn_name async_method +:+ "_sync")
      (Some ("Synchronous wrapper for " +:+ fn_name async_method +:+ "." +:+ LF +:+ LF
               +:+ doc_or_empty (fn_doc async_method)))
      (with_self "sync_wrapper" sync_wrapper).

Definition smart_async_wrapper (async_method : pyfunc) : pyfunc :=
  let smart_wrapper (self : value) (args : list value) (kw : kwargs) : M returned :=
    in_async ← detect_async_context;
    if (in_async : bool) then
      call async_method (self :: args) kw
    else
      c ← call async_method (self :: args) kw;
      v ← run_async_in_thread c;
      mret (Direct v) in
  def (str_replace "_async" "" (fn_name async_method))
      (Some ("Smart wrapper for " +:+ fn_name async_method
               +:+ " that adapts to execution context." +:+ LF
               +:+ "    " +:+ LF
               +:+ "    In async contexts: returns awaitable coroutine" +:+ LF
               +:+ "    In sync contexts: returns the actual result" +:+ LF
               +:+ "    " +:+ LF
               +:+ "    " +:+ doc_or_empty (fn_doc async_method) +:+ LF
               +:+ "    "))
      (with_self "smart_wrapper" smart_wrapper).

(** Driving a call to completion: calling [f] and, when the call gives an
    awaitable, running it. *)
Definition invoke (f : pyfunc) (args : list value) (kw : kwargs) : M returned :=
  r ← fn_call f args kw;
  match r with
  | Awaitable c => v ← c; mret (Direct v)
  | Direct v => mret (Direct v)
  end.

(** ** Vocabulary of the statements *)

(** What the runtime client's readiness predicate reports in world [w]. *)
Definition readiness (w : world) (syft_client : value) : outcome bool :=
  result_of (my_datasite_exists syft_client false w).

(** The run in which the operation with behaviour [b] is called once, on
    [args] and [kw], from world [w], and its outcome handed on as it is. *)
Definition handed_on (b : behaviour) (args : list value) (kw : kwargs) (w : world)
    (trace : list event) : outcome returned * world * list event :=
  (outcome_map Direct (b args kw w).1, (b args kw w).2, trace).

(** The run in which a guard refuses: the error, the world as it was, and
    nothing done to the operation. *)
Definition refused (cls : exc_class) (msg : string) (w : world)
    : outcome returned * world * list event :=
  (Raise (Exn cls msg), w, []).

(** What a call of the operation leaves in the trace: the call, and the
    await when the operation is asynchronous. *)
Definition called_once (is_async : bool) (args : list value) (kw : kwargs) : list event :=
  EvCall args kw :: (if is_async then [EvAwait] else []).

(** The two fields of a service instance that the guards look at. *)
Definition guarded_fields (w : world) (inst : value) : option value * option value :=
  (attrs_of w inst !! "syft_client", attrs_of w inst !! "_account_configured").

(** The adaptive wrapper's name as the specification words it: the original
    name with an "_async" suffix stripped if present. *)
Fixpoint spec_strip_suffix (suffix s : string) : string :=
  if String.eqb s suffix then ""
  else match s with
       | EmptyString => EmptyString
       | String c s' => String c (spec_strip_suffix suffix s')
       end.

(** ** A small world to run the decorators in *)

Definition client_loc : loc := 1%positive.
Definition service_loc : loc := 2%positive.
Definition bare_loc : loc := 3%positive.
Definition stale_loc : loc := 4%positive.
Definition token_loc : loc := 5%positive.
Definition lapsed_loc : loc := 6%positive.
Definition future_loc : loc := 7%positive.

(** A token is true while it is valid. *)
Definition token_class : pyclass :=
  PyClass "Token" false
    (Some (fun attrs =>
             Return (match attrs !! "valid" with Some (VBool true) => true | _ => false end)))
    None None.

(** A future resolves to the result it holds. *)
Definition future_class : pyclass :=
  PyClass "Future" false None None
    (Some (fun attrs =>
             match attrs !! "result" with
             | Some v => Return v
             | None => Raise (Exn (OtherError "InvalidStateError") "Result is not set.")
             end)).

Definition demo_heap : gmap loc obj :=
  {[ client_loc := Obj (plain_class "Client" true) {[ "my_datasite" := VStr "/datasites/a@b.org" ]};
     service_loc := Obj (plain_class "ChatService" false)
                      {[ "syft_client" := VRef client_loc;
                         "_account_configured" := VBool true ]};
     bare_loc := Obj (plain_class "SearchService" false) {[ "syft_client" := VStr "client" ]};
     stale_loc := Obj (plain_class "ChatService" false)
                    {[ "syft_client" := VRef client_loc;
                       "_account_configured" := VInt 0 ]};
     token_loc := Obj token_class {[ "valid" := VBool false ]};
     lapsed_loc := Obj (plain_class "ChatService" false)
                     {[ "syft_client" := VRef client_loc;
                        "_account_configured" := VRef token_loc ]};
     future_loc := Obj future_class {[ "result" := VStr "pong" ]} ]}.

(** SyftBox is running: the datasite directory is there. *)
Definition running_world : world := World demo_heap {[ "/datasites/a@b.org" ]}.

(** SyftBox is not running: nothing is there. *)
Definition stopped_world : world := World demo_heap ∅.

(** An operation that answers with the number of its positional arguments. *)
Definition count_args : behaviour :=
  fun args kw w => (Return (VInt (Z.of_nat (length args))), w).

(** An operation that hands out the future. *)
Definition hand_future : behaviour :=
  fun args kw w => (Return (VRef future_loc), w).

(** An operation that marks the instance it is called on and fails. *)
Definition mark_and_fail : behaviour :=
  fun args kw w =>
    (Raise (Exn (OtherError "ValueError") "no such model"),
     World (match args with
            | VRef l :: _ =>
                match heap w !! l with
                | Some o => <[l := Obj (obj_class o) (<["touched" := VBool true]> (obj_attrs o))]> (heap w)
                | None => heap w
                end
            | _ => heap w
            end) (fs w)).

(** ** Vocabulary of the stacked decorators *)

(** A coroutine's run, seen as the run of the call that drove it. *)
Definition lift_direct (x : outcome value * world * list event)
    : outcome returned * world * list event :=
  (outcome_map Direct x.1.1, x.1.2, x.2).

(** A run with the events [t] before its own. *)
Definition preceded_by {A} (t : list event) (x : outcome A * world * list event)
    : outcome A * world * list event :=
  (x.1.1, x.1.2, t ++ x.2).

(** The error with which the checks of [ensure_syftbox_running] stop a call
    on [inst] in world [w], if they do. *)
Definition availability_error (w : world) (inst : value) : option exn :=
  match attrs_of w inst !! "syft_client" with
  | Some client =>
      if isinstance_SyftClient w client then
        match readiness w client with
        | Return true => None
        | Return false =>
            Some (Exn SyftBoxNotRunningError
                    "Local SyftBox is not running. Cannot send RPC request.")
        | Raise e => Some e
        end
      else
        Some (Exn AttributeError
                ("Service instance " +:+ class_name w inst
                   +:+ " lacks a valid 'syft_client' attribute."))
  | None =>
      Some (Exn AttributeError
              ("Service instance " +:+ class_name w inst
                 +:+ " lacks a valid 'syft_client' attribute."))
  end.

(** The error with which the check of [require_account] stops a call on
    [self] in world [w], if it does. *)
Definition account_error (w : world) (self : value) : option exn :=
  match truthy w (getattr_default w self "_account_configured" (VBool false)) with
  | Return true => None
  | Return false => Some (Exn AuthenticationError account_setup_required)
  | Raise e => Some e
  end.

(** The outcome of a call the authorization guard refuses. *)
Definition denied {A} : outcome A :=
  Raise (Exn AuthenticationError account_setup_required).

(** What a caller sees of a run: the value or error, and the world left. *)
Definition seen {A} (x : outcome A * world * list event) : outcome A * world :=
  (result_of x, world_of x).

(** An operation that signs the instance out: it sets [_account_configured]
    of the instance it is called on to [False] and returns [None]. *)
Definition sign_out : behaviour :=
  fun args kw w =>
    (Return VNone,
     World (match args with
            | VRef l :: _ =>
                match heap w !! l with
                | Some o =>
                    <[l := Obj (obj_class o)
                             (<["_account_configured" := VBool false]> (obj_attrs o))]> (heap w)
                | None => heap w
                end
            | _ => heap w
            end) (fs w)).

(** * Properties *)

(** Unfolds the plumbing of [M] in a goal. *)
Ltac run_monad :=
  unfold py_not, mbind, mret, M_bind, M_ret, tell, raise, settle, get_world; cbn.

(** ** Strings *)

Lemma append_String (c : Ascii.ascii) (s t : string) :
  String c s +:+ t = String c (s +:+ t).
Proof. reflexivity. Qed.

Lemma append_empty_l (s : string) : "" +:+ s = s.
Proof. reflexivity. Qed.

Lemma append_empty_r (s : string) : s +:+ "" = s.
Proof. induction s as [|c s IH]; [reflexivity | rewrite append_String; congruence]. Qed.

Lemma append_assoc (s1 s2 s3 : string) : (s1 +:+ s2) +:+ s3 = s1 +:+ (s2 +:+ s3).
Proof. induction s1 as [|c s1 IH]; [reflexivity | rewrite !append_String; congruence]. Qed.

Lemma prefix_String (c d : Ascii.ascii) (s1 s2 : string) :
  String.prefix (String c s1) (String d s2) = bool_decide (c = d) && String.prefix s1 s2.
Proof.
  simpl. destruct (Ascii.ascii_dec c d) as [->|Hne].
  - now rewrite bool_decide_eq_true_2.
  - now rewrite bool_decide_eq_false_2.
Qed.

Lemma replace_from_empty (fuel : nat) (old new : string) :
  replace_from fuel old new "" = "".
Proof. destruct fuel; reflexivity. Qed.

(** Where [old] does not occur, [replace] changes nothing. *)
Lemma replace_from_absent (old new : string) (fuel : nat) (s : string) :
  str_contains old s = false -> replace_from fuel old new s = s.
Proof.
  revert s. induction fuel as [|fuel IH]; intros s Hs; [reflexivity|].
  destruct s as [|c s]; [reflexivity|].
  cbn [replace_from]. cbn [str_contains] in Hs.
  apply orb_false_iff in Hs as [Hp Hs]. rewrite Hp, IH; auto.
Qed.

(** No occurrence of "_async" begins inside [base] and ends inside a
    following "_async": the underscore is its first character only. *)
Lemma prefix_async_straddle (base : string) :
  str_contains "_async" base = false ->
  base <> "" ->
  String.prefix "_async" (base +:+ "_async") = false.
Proof.
  intros Hc Hne.
  destruct (String.prefix "_async" (base +:+ "_async")) eqn:Hp; [exfalso | reflexivity].
  destruct base as [|c1 base]; [congruence|].
  cbn [str_contains] in Hc. apply orb_false_iff in Hc as [Hc _].
  repeat
    (match goal with
     | b : string |- _ => destruct b as [|? ?]
     end;
     rewrite ?append_String, ?append_empty_l in *;
     rewrite ?prefix_String in *;
     repeat match goal with
       | H : context [bool_decide (?x = ?y)] |- _ => destruct (bool_decide_reflect (x = y)); cbn [andb] in H
       end;
     try discriminate; subst).
Qed.

Lemma replace_async_suffix (base : string) (fuel : nat) :
  str_contains "_async" base = false ->
  (String.length base < fuel)%nat ->
  replace_from fuel "_async" "" (base +:+ "_async") = base.
Proof.
  revert fuel. induction base as [|c base IH]; intros fuel Hc Hlen.
  - destruct fuel as [|fuel]; [inversion Hlen|].
    rewrite append_empty_l. cbn. apply replace_from_empty.
  - destruct fuel as [|fuel]; [inversion Hlen|].
    rewrite append_String. cbn [replace_from].
    rewrite <- append_String, prefix_async_straddle by (auto; discriminate).
    cbn [str_contains] in Hc. apply orb_false_iff in Hc as [_ Hc].
    rewrite IH; [reflexivity | assumption | cbn [String.length] in Hlen; lia].
Qed.

Lemma length_append (s t : string) :
  String.length (s +:+ t) = (String.length s + String.length t)%nat.
Proof.
  induction s as [|c s IH]; [reflexivity|].
  rewrite append_String. cbn [String.length]. now rewrite IH.
Qed.

Lemma length_drop_str (n : nat) (s : string) :
  (String.length (drop_str n s) <= String.length s)%nat.
Proof.
  revert s. induction n as [|n IH]; intros [|c s]; cbn; try lia.
  specialize (IH s). lia.
Qed.

(** The fuel [str_replace] starts with is enough: more of it changes
    nothing. *)
Lemma replace_from_enough (old new : string) (fuel1 fuel2 : nat) (s : string) :
  old <> "" ->
  (String.length s <= fuel1)%nat ->
  (String.length s <= fuel2)%nat ->
  replace_from fuel1 old new s = replace_from fuel2 old new s.
Proof.
  intros Hold. revert fuel2 s.
  induction fuel1 as [|fuel1 IH]; intros fuel2 s H1 H2.
  - destruct s; [|cbn in H1; lia]. now rewrite !replace_from_empty.
  - destruct s as [|c s]; [now rewrite !replace_from_empty|].
    destruct fuel2 as [|fuel2]; [cbn in H2; lia|].
    cbn [replace_from String.length] in *.
    destruct (String.prefix old (String c s)).
    + f_equal. destruct old as [|d old]; [congruence|].
      cbn [String.length drop_str].
      pose proof (length_drop_str (String.length old) s).
      apply IH; lia.
    + f_equal. apply IH; lia.
Qed.

Lemma prefix_refl (s : string) : String.prefix s s = true.
Proof.
  induction s as [|c s IH]; [reflexivity|].
  rewrite prefix_String, IH. now rewrite bool_decide_eq_true_2.
Qed.

Lemma spec_strip_suffix_unfold (suffix s : string) :
  spec_strip_suffix suffix s
  = if String.eqb s suffix then ""
    else match s with
         | EmptyString => EmptyString
         | String c s' => String c (spec_strip_suffix suffix s')
         end.
Proof. destruct s; reflexivity. Qed.

Lemma spec_strip_suffix_app (suffix base : string) :
  spec_strip_suffix suffix (base +:+ suffix) = base.
Proof.
  induction base as [|c base IH]; rewrite spec_strip_suffix_unfold.
  - rewrite append_empty_l, String.eqb_refl. reflexivity.
  - destruct (String.eqb_spec (String c base +:+ suffix) suffix) as [E|_].
    + apply (f_equal String.length) in E. rewrite length_append in E.
      cbn [String.length] in E. lia.
    + rewrite append_String. now rewrite IH.
Qed.

Lemma spec_strip_suffix_absent (suffix s : string) :
  str_contains suffix s = false -> spec_strip_suffix suffix s = s.
Proof.
  induction s as [|c s IH]; intros H; rewrite spec_strip_suffix_unfold.
  - now destruct (String.eqb "" suffix).
  - cbn [str_contains] in H. apply orb_false_iff in H as [Hp H].
    destruct (String.eqb_spec (String c s) suffix) as [E|_].
    + rewrite <- E, prefix_refl in Hp. discriminate.
    + now rewrite IH.
Qed.

(** ** Running the primitives *)

Lemma hasattr_Some (w : world) (v : value) (name : string) (x : value) :
  attrs_of w v !! name = Some x -> hasattr w v name = true.
Proof. intros H. unfold hasattr. rewrite H. apply bool_decide_eq_true_2. eauto. Qed.

Lemma hasattr_None (w : world) (v : value) (name : string) :
  attrs_of w v !! name = None -> hasattr w v name = false.
Proof.
  intros H. unfold hasattr. rewrite H. apply bool_decide_eq_false_2.
  intros [? ?]; discriminate.
Qed.

Lemma getattr_Some (w : world) (v : value) (name : string) (x : value) (in_loop : bool) :
  attrs_of w v !! name = Some x -> getattr v name in_loop w = (Return x, w, []).
Proof. intros H. unfold getattr, mbind, M_bind, get_world. now rewrite H. Qed.

(** The readiness predicate only reads: whatever it answers, the world is
    the one it was asked about and the wrapped function was not touched. *)
Lemma my_datasite_exists_reads (client : value) (in_loop : bool) (w : world) :
  my_datasite_exists client in_loop w
  = (result_of (my_datasite_exists client false w), w, []).
Proof.
  unfold my_datasite_exists, getattr, mbind, M_bind, get_world, result_of.
  destruct (attrs_of w client !! "my_datasite") as [p|]; [destruct p|]; reflexivity.
Qed.

(** ** The availability guard *)

(** C8. A guarded asynchronous operation invoked with no arguments at all
    fails with a [TypeError] saying that it must be called as a method; the
    operation is not called. *)
Theorem ensure_syftbox_running_no_args :
  forall (name : string) (doc : option string) (b : behaviour)
         (kw : kwargs) (in_loop : bool) (w : world),
    invoke (ensure_syftbox_running (operation name doc true b)) [] kw in_loop w
    = refused TypeError
        ("'" +:+ name +:+ "' must be called as a method (i.e., requires 'self').") w.
Proof. reflexivity. Qed.

(** C7. When the first argument has no [syft_client] attribute, or has one
    that is not a [SyftClient], invoking the guarded operation fails with an
    [AttributeError] whose message names the class of the instance; the
    operation is not called. *)
Theorem ensure_syftbox_running_invalid_client :
  forall (name : string) (doc : option string) (b : behaviour)
         (inst : value) (rest : list value) (kw : kwargs) (in_loop : bool) (w : world),
    (attrs_of w inst !! "syft_client" = None
     \/ exists c, attrs_of w inst !! "syft_client" = Some c
                  /\ isinstance_SyftClient w c = false) ->
    invoke (ensure_syftbox_running (operation name doc true b)) (inst :: rest) kw in_loop w
    = refused AttributeError
        ("Service instance " +:+ class_name w inst
           +:+ " lacks a valid 'syft_client' attribute.") w.
Proof.
  intros name doc b inst rest kw in_loop w H.
  unfold invoke, ensure_syftbox_running, operation, async_def, fn_call, refused.
  run_monad.
  destruct H as [H | (c & H & Hc)].
  - rewrite (hasattr_None _ _ _ H). reflexivity.
  - rewrite (hasattr_Some _ _ _ _ H). cbn.
    rewrite (getattr_Some _ _ _ _ _ H), Hc. reflexivity.
Qed.

(** How the guard's checks run on an instance: they come down to the
    [syft_client] attribute, its class, and the readiness predicate, and the
    world they leave is the one they found. *)
Lemma ensure_syftbox_running_decides
    (func : pyfunc) (inst : value) (rest : list value) (kw : kwargs)
    (in_loop : bool) (w : world) :
  invoke (ensure_syftbox_running func) (inst :: rest) kw in_loop w
  = match attrs_of w inst !! "syft_client" with
    | Some client =>
        if isinstance_SyftClient w client then
          match readiness w client with
          | Return true =>
              (r ← (r ← call func (inst :: rest) kw; await r); mret (Direct r)) in_loop w
          | Return false =>
              refused SyftBoxNotRunningError
                "Local SyftBox is not running. Cannot send RPC request." w
          | Raise e => (Raise e, w, [])
          end
        else
          refused AttributeError
            ("Service instance " +:+ class_name w inst
               +:+ " lacks a valid 'syft_client' attribute.") w
    | None =>
        refused AttributeError
          ("Service instance " +:+ class_name w inst
             +:+ " lacks a valid 'syft_client' attribute.") w
    end.
Proof.
  unfold invoke, ensure_syftbox_running, async_def, fn_call, refused.
  run_monad.
  destruct (attrs_of w inst !! "syft_client") as [client|] eqn:H.
  2: { rewrite (hasattr_None _ _ _ H). reflexivity. }
  rewrite (hasattr_Some _ _ _ _ H). cbn.
  rewrite (getattr_Some _ _ _ _ _ H).
  destruct (isinstance_SyftClient w client); cbn; [|reflexivity].
  rewrite (getattr_Some _ _ _ _ _ H).
  rewrite my_datasite_exists_reads. fold (readiness w client).
  destruct (readiness w client) as [[|]|e]; cbn; try reflexivity.
  destruct (call func (inst :: rest) kw in_loop w) as [[[r|e] w1] t1]; [|reflexivity].
  destruct (await r in_loop w1) as [[[v|e] w2] t2]; reflexivity.
Qed.

(** What invoking an operation amounts to. *)
Lemma operation_invoked
    (name : string) (doc : option string) (is_async : bool) (b : behaviour)
    (args : list value) (kw : kwargs) (in_loop : bool) (w : world) :
  invoke (operation name doc is_async b) args kw in_loop w = handed_on b args kw w [].
Proof.
  unfold invoke, operation, handed_on.
  destruct is_async; unfold async_def, def, run_body, fn_call; run_monad;
    destruct (b args kw w) as [[v|e] w']; reflexivity.
Qed.

(** What calling and awaiting an operation amounts to. *)
Lemma operation_called_and_awaited
    (name : string) (doc : option string) (b : behaviour)
    (args : list value) (kw : kwargs) (in_loop : bool) (w : world) :
  (r ← (r ← call (operation name doc true b) args kw; await r); mret (Direct r)) in_loop w
  = handed_on b args kw w [EvCall args kw; EvAwait].
Proof.
  unfold handed_on, operation, async_def, call, await, run_body, fn_call.
  run_monad.
  destruct (b args kw w) as [[v|e] w']; reflexivity.
Qed.

(** C4. On a service instance whose runtime client reports that the local
    datasite is not there, invoking the guarded asynchronous operation fails
    with [SyftBoxNotRunningError] and its message; the operation is not
    called. *)
Theorem ensure_syftbox_running_not_running :
  forall (name : string) (doc : option string) (b : behaviour)
         (inst client : value) (rest : list value) (kw : kwargs)
         (in_loop : bool) (w : world),
    attrs_of w inst !! "syft_client" = Some client ->
    isinstance_SyftClient w client = true ->
    readiness w client = Return false ->
    invoke (ensure_syftbox_running (operation name doc true b)) (inst :: rest) kw in_loop w
    = refused SyftBoxNotRunningError
        "Local SyftBox is not running. Cannot send RPC request." w.
Proof.
  intros name doc b inst client rest kw in_loop w H Hc Hr.
  rewrite ensure_syftbox_running_decides, H, Hc, Hr. reflexivity.
Qed.

(** C5. On a service instance with a valid runtime client that reports the
    datasite present, invoking the guarded asynchronous operation calls the
    operation exactly once, with the original arguments, awaits it, and
    returns its result or raises its error unchanged. *)
Theorem ensure_syftbox_running_passes :
  forall (name : string) (doc : option string) (b : behaviour)
         (inst client : value) (rest : list value) (kw : kwargs)
         (in_loop : bool) (w : world),
    attrs_of w inst !! "syft_client" = Some client ->
    isinstance_SyftClient w client = true ->
    readiness w client = Return true ->
    invoke (ensure_syftbox_running (operation name doc true b)) (inst :: rest) kw in_loop w
    = handed_on b (inst :: rest) kw w [EvCall (inst :: rest) kw; EvAwait]
    /\ invoke (operation name doc true b) (inst :: rest) kw in_loop w
       = handed_on b (inst :: rest) kw w [].
Proof.
  intros name doc b inst client rest kw in_loop w H Hc Hr.
  rewrite ensure_syftbox_running_decides, H, Hc, Hr.
  split; [apply operation_called_and_awaited | apply operation_invoked].
Qed.

(** ** The authorization guard *)

(** The guard decides on the truth value of [_account_configured], taken as
    [False] when the instance has no such attribute. *)
Lemma require_account_decides
    (name : string) (doc : option string) (is_async : bool) (b : behaviour)
    (self : value) (rest : list value) (kw : kwargs) (in_loop : bool) (w : world) :
  invoke (require_account (operation name doc is_async b)) (self :: rest) kw in_loop w
  = match truthy w (getattr_default w self "_account_configured" (VBool false)) with
    | Return true => handed_on b (self :: rest) kw w (called_once is_async (self :: rest) kw)
    | Return false => refused AuthenticationError account_setup_required w
    | Raise e => (Raise e, w, [])
    end.
Proof.
  unfold invoke, require_account, iscoroutinefunction, operation, handed_on, refused,
    called_once.
  destruct is_async; unfold async_def, def, with_self, call, await, run_body, fn_call, fn_async;
    run_monad;
    destruct (truthy w (getattr_default w self "_account_configured" (VBool false)))
      as [[|]|e0];
    cbn; try reflexivity;
    destruct (b (self :: rest) kw w) as [[v|e] w']; reflexivity.
Qed.

(** C3. When [_account_configured] is [False] or absent, invoking the
    guarded operation, synchronous or asynchronous, fails with the
    [AuthenticationError] that tells how to set the account up; the operation
    is not called and, in the asynchronous wrapper, nothing is awaited. *)
Theorem require_account_refuses :
  forall (name : string) (doc : option string) (is_async : bool) (b : behaviour)
         (self : value) (rest : list value) (kw : kwargs) (in_loop : bool) (w : world),
    (attrs_of w self !! "_account_configured" = None
     \/ attrs_of w self !! "_account_configured" = Some (VBool false)) ->
    invoke (require_account (operation name doc is_async b)) (self :: rest) kw in_loop w
    = refused AuthenticationError account_setup_required w
    /\ trace_of (invoke (require_account (operation name doc is_async b))
                   (self :: rest) kw in_loop w) = []
    /\ embeds account_setup_required
         "Please run: await client.setup_accounting(email, password)".
Proof.
  intros name doc is_async b self rest kw in_loop w H.
  rewrite require_account_decides. unfold getattr_default.
  destruct H as [-> | ->]; cbn.
  all: repeat split; try reflexivity.
  all: exists "Account setup required before using services. ", ""; reflexivity.
Qed.

(** C6. The guard gives back an asynchronous function for an asynchronous
    operation and a synchronous one otherwise; and on an instance whose
    [_account_configured] is [True] the guarded operation does what the
    operation does: same value returned or same error raised, same world. *)
Theorem require_account_transparent :
  forall (name : string) (doc : option string) (is_async : bool) (b : behaviour)
         (self : value) (rest : list value) (kw : kwargs) (in_loop : bool) (w : world),
    attrs_of w self !! "_account_configured" = Some (VBool true) ->
    (forall func : pyfunc,
        iscoroutinefunction (require_account func) = iscoroutinefunction func)
    /\ invoke (require_account (operation name doc is_async b)) (self :: rest) kw in_loop w
       = handed_on b (self :: rest) kw w (called_once is_async (self :: rest) kw)
    /\ invoke (operation name doc is_async b) (self :: rest) kw in_loop w
       = handed_on b (self :: rest) kw w [].
Proof.
  intros name doc is_async b self rest kw in_loop w H. split; [|split].
  - intros func. unfold require_account, iscoroutinefunction.
    destruct (fn_async func) eqn:E; reflexivity.
  - rewrite require_account_decides. unfold getattr_default. now rewrite H.
  - apply operation_invoked.
Qed.

(** An instance is as true as its [__bool__] says. *)
Lemma truthy_instance_bool (w : world) (l : loc) (o : obj)
    (to_bool : gmap string value -> outcome bool) :
  heap w !! l = Some o ->
  cls_bool (obj_class o) = Some to_bool ->
  truthy w (VRef l) = to_bool (obj_attrs o).
Proof. intros Ho Hb. cbn. now rewrite Ho, Hb. Qed.

(** Without [__bool__], an instance with [__len__] is true when its length
    is not zero. *)
Lemma truthy_instance_len (w : world) (l : loc) (o : obj)
    (len : gmap string value -> outcome Z) (n : Z) :
  heap w !! l = Some o ->
  cls_bool (obj_class o) = None ->
  cls_len (obj_class o) = Some len ->
  len (obj_attrs o) = Return n ->
  0 <= n ->
  truthy w (VRef l) = Return (negb (n =? 0)).
Proof.
  intros Ho Hb Hl Hn Hpos. cbn. rewrite Ho, Hb, Hl, Hn.
  destruct (n <? 0) eqn:E; [apply Z.ltb_lt in E; lia | reflexivity].
Qed.


(** ** Frame *)

Lemma handed_on_world (b : behaviour) (args : list value) (kw : kwargs) (w : world)
    (t : list event) :
  world_of (handed_on b args kw w t) = (b args kw w).2.
Proof. reflexivity. Qed.

Lemma refused_world (cls : exc_class) (msg : string) (w : world) :
  world_of (refused cls msg w) = w.
Proof. reflexivity. Qed.

(** C9. The checks of both guards only read the instance: when the wrapped
    operation itself leaves [syft_client] and [_account_configured] of the
    instance as they are, so does the guarded call, whether the checks pass
    or fail; and a guarded call that fails its checks leaves the whole world
    as it was. *)
Theorem guards_only_read :
  forall (name : string) (doc : option string) (is_async : bool) (b : behaviour)
         (inst : value) (rest : list value) (kw : kwargs) (in_loop : bool) (w : world),
    guarded_fields (b (inst :: rest) kw w).2 inst = guarded_fields w inst ->
    let available :=
      invoke (ensure_syftbox_running (operation name doc true b)) (inst :: rest) kw in_loop w in
    let authorized :=
      invoke (require_account (operation name doc is_async b)) (inst :: rest) kw in_loop w in
    guarded_fields (world_of available) inst = guarded_fields w inst
    /\ guarded_fields (world_of authorized) inst = guarded_fields w inst
    /\ (trace_of available = [] -> world_of available = w)
    /\ (trace_of authorized = [] -> world_of authorized = w)
    /\ world_of (invoke (ensure_syftbox_running (operation name doc true b)) [] kw in_loop w) = w.
Proof.
  intros name doc is_async b inst rest kw in_loop w Hb available authorized.
  subst available authorized.
  rewrite ensure_syftbox_running_decides, require_account_decides,
    operation_called_and_awaited.
  repeat split.
  - destruct (attrs_of w inst !! "syft_client") as [client|]; [|reflexivity].
    destruct (isinstance_SyftClient w client); [|reflexivity].
    destruct (readiness w client) as [[|]|e]; try reflexivity.
    rewrite handed_on_world. exact Hb.
  - destruct (truthy _ _) as [[|]|e]; [rewrite handed_on_world; exact Hb | reflexivity..].
  - destruct (attrs_of w inst !! "syft_client") as [client|]; [|reflexivity].
    destruct (isinstance_SyftClient w client); [|reflexivity].
    destruct (readiness w client) as [[|]|e]; try reflexivity.
    unfold handed_on, trace_of; cbn. discriminate.
  - destruct (truthy _ _) as [[|]|e]; [|reflexivity..].
    unfold handed_on, called_once, trace_of; cbn. discriminate.
Qed.

(** ** The call-context adapters *)

(** C1. Called while an event loop is running on the thread, the adaptive
    wrapper of an asynchronous operation calls the operation and returns its
    coroutine as it is, not started; the coroutine, once run, does what the
    operation does.  Called with no loop running, it runs the coroutine to
    completion with [run_async_in_thread] and returns the value itself, as
    the blocking wrapper does. *)
Theorem smart_async_wrapper_adapts :
  forall (name : string) (doc : option string) (b : behaviour)
         (self : value) (rest : list value) (kw : kwargs) (w : world),
    let O := operation name doc true b in
    let args := self :: rest in
    fn_call (smart_async_wrapper O) args kw true w
    = (result_of (fn_call O args kw true w), w, [EvCall args kw])
    /\ result_of (fn_call O args kw true w) = Return (Awaitable (run_body b args kw))
    /\ (forall (in_loop : bool) (w' : world),
          result_of (run_body b args kw in_loop w') = (b args kw w').1
          /\ world_of (run_body b args kw in_loop w') = (b args kw w').2)
    /\ fn_call (smart_async_wrapper O) args kw false w
       = handed_on b args kw w [EvCall args kw]
    /\ fn_call (make_sync_wrapper O) args kw false w
       = handed_on b args kw w [EvCall args kw].
Proof.
  intros name doc b self rest kw w O args. subst O args.
  unfold smart_async_wrapper, make_sync_wrapper, operation, async_def, def, with_self,
    detect_async_context, run_async_in_thread, call, run_body, handed_on, result_of,
    world_of, fn_call.
  run_monad.
  repeat split; try reflexivity.
  all: try (destruct (b (self :: rest) kw w') as [r w2]; reflexivity).
  all: destruct (b (self :: rest) kw w) as [[v|e] w1]; reflexivity.
Qed.

Lemma str_replace_async_suffix (base : string) :
  str_contains "_async" base = false ->
  str_replace "_async" "" (base +:+ "_async") = base.
Proof.
  intros H. unfold str_replace. apply replace_async_suffix; [assumption|].
  rewrite length_append. cbn. lia.
Qed.

(** C2, as the code has it.  The blocking wrapper is named after the
    original with "_sync" appended; the adaptive wrapper is named after the
    original with every occurrence of "_async" taken out, which is the
    original name when it has none and the name without its suffix when the
    suffix is its only occurrence (there, stripping a suffix gives the same
    name); and the documentation of both wrappers embeds the original
    documentation. *)
Theorem wrapper_names_and_docs :
  forall (name base : string) (doc : option string) (is_async : bool)
         (body : list value -> kwargs -> M returned),
    str_contains "_async" base = false ->
    let named n := PyFunc n doc is_async body in
    fn_name (make_sync_wrapper (named name)) = name +:+ "_sync"
    /\ embeds (doc_or_empty (fn_doc (make_sync_wrapper (named name)))) (doc_or_empty doc)
    /\ fn_name (smart_async_wrapper (named name)) = str_replace "_async" "" name
    /\ embeds (doc_or_empty (fn_doc (smart_async_wrapper (named name)))) (doc_or_empty doc)
    /\ fn_name (smart_async_wrapper (named (base +:+ "_async"))) = base
    /\ spec_strip_suffix "_async" (base +:+ "_async") = base
    /\ fn_name (smart_async_wrapper (named base)) = base
    /\ spec_strip_suffix "_async" base = base.
Proof.
  intros name base doc is_async body Hbase named. subst named.
  unfold make_sync_wrapper, smart_async_wrapper, def; cbn [fn_name fn_doc doc_or_empty].
  repeat split.
  - exists ("Synchronous wrapper for " +:+ name +:+ "." +:+ LF +:+ LF), "".
    now rewrite append_empty_r, !append_assoc.
  - exists ("Smart wrapper for " +:+ name +:+ " that adapts to execution context." +:+ LF
              +:+ "    " +:+ LF
              +:+ "    In async contexts: returns awaitable coroutine" +:+ LF
              +:+ "    In sync contexts: returns the actual result" +:+ LF
              +:+ "    " +:+ LF +:+ "    "),
           (LF +:+ "    ").
    now rewrite !append_assoc.
  - now apply str_replace_async_suffix.
  - apply spec_strip_suffix_app.
  - unfold str_replace. now apply replace_from_absent.
  - now apply spec_strip_suffix_absent.
Qed.

(** ** The statements at work *)

(** The operation [fetch_async], documented "Fetches X": its blocking
    wrapper is [fetch_async_sync], its adaptive wrapper [fetch]. *)
Example fetch_async_names :
  let O := operation "fetch_async" (Some "Fetches X") true count_args in
  fn_name (make_sync_wrapper O) = "fetch_async_sync"
  /\ fn_doc (make_sync_wrapper O)
     = Some ("Synchronous wrapper for fetch_async." +:+ LF +:+ LF +:+ "Fetches X")
  /\ fn_name (smart_async_wrapper O) = "fetch".
Proof. vm_compute. repeat split; reflexivity. Qed.

(** An undocumented operation: the wrappers' documentation ends where the
    original one would stand. *)
Example undocumented_sync_doc :
  fn_doc (make_sync_wrapper (operation "ping" None true count_args))
  = Some ("Synchronous wrapper for ping." +:+ LF +:+ LF).
Proof. vm_compute. reflexivity. Qed.

(** A guarded synchronous operation on a configured instance, and on one
    whose flag is [0]. *)
Example require_account_runs :
  invoke (require_account (operation "models" None false count_args))
    [VRef service_loc; VStr "a"; VStr "b"] [] false running_world
  = (Return (Direct (VInt 3)), running_world,
     [EvCall [VRef service_loc; VStr "a"; VStr "b"] []])
  /\ result_of (invoke (require_account (operation "models" None false count_args))
                  [VRef stale_loc] [] false running_world)
     = Raise (Exn AuthenticationError account_setup_required).
Proof. split; vm_compute; reflexivity. Qed.

(** The adaptive wrapper inside and outside an event loop. *)
Example smart_wrapper_both_ways :
  let smart := smart_async_wrapper (operation "chat_async" None true count_args) in
  result_of (fn_call smart [VRef service_loc; VStr "hi"] [] false running_world)
  = Return (Direct (VInt 2))
  /\ (exists c, result_of (fn_call smart [VRef service_loc; VStr "hi"] [] true running_world)
                = Return (Awaitable c)
                /\ result_of (c true running_world) = Return (VInt 2)).
Proof.
  split; [vm_compute; reflexivity|].
  eexists. split; [reflexivity | vm_compute; reflexivity].
Qed.

(** A flag that holds [0], and one that holds an invalid token: both are
    refused like a flag that is not there. *)
Example falsy_flags_refused :
  invoke (require_account (operation "chat" None true count_args))
    [VRef stale_loc] [] false running_world
  = refused AuthenticationError account_setup_required running_world
  /\ invoke (require_account (operation "chat" None true count_args))
       [VRef lapsed_loc] [] false running_world
     = refused AuthenticationError account_setup_required running_world.
Proof. split; vm_compute; reflexivity. Qed.

(** The adaptive wrapper of [load_async_data] is named [load_data]: the
    name has no "_async" suffix to strip, and the wrapper's name is not the
    original one. *)
Lemma smart_async_wrapper_name_not_suffix_strip :
  let O := operation "load_async_data" (Some "Loads the data.") true count_args in
  fn_name (smart_async_wrapper O) = "load_data"
  /\ spec_strip_suffix "_async" (fn_name O) = "load_async_data"
  /\ fn_name (smart_async_wrapper O) <> spec_strip_suffix "_async" (fn_name O).
Proof. vm_compute. repeat split; discriminate. Qed.

Lemma wrapper_names_and_docs_witness :
  str_contains "_async" "fetch" = false
  /\ fn_name (make_sync_wrapper (PyFunc "fetch_async" (Some "Fetches X") true
                (fun _ _ => mret (Direct VNone)))) = "fetch_async" +:+ "_sync"
  /\ fn_name (smart_async_wrapper (PyFunc ("fetch" +:+ "_async") (Some "Fetches X") true
                (fun _ _ => mret (Direct VNone)))) = "fetch".
Proof.
  split; [reflexivity|].
  pose proof (wrapper_names_and_docs "fetch_async" "fetch" (Some "Fetches X") true
                (fun _ _ => mret (Direct VNone)) eq_refl) as H.
  cbv zeta in H. destruct H as (Hsync & _ & _ & _ & Hsmart & _).
  split; [exact Hsync | exact Hsmart].
Defined.

Lemma require_account_refuses_witness :
  attrs_of running_world (VRef bare_loc) !! "_account_configured" = None
  /\ invoke (require_account (operation "chat" None true count_args))
       [VRef bare_loc; VStr "hello"] [] true running_world
     = refused AuthenticationError account_setup_required running_world.
Proof.
  split; [vm_compute; reflexivity|].
  apply (require_account_refuses "chat" None true count_args (VRef bare_loc)).
  left. vm_compute. reflexivity.
Defined.

Lemma ensure_syftbox_running_not_running_witness :
  readiness stopped_world (VRef client_loc) = Return false
  /\ invoke (ensure_syftbox_running (operation "send_rpc" None true count_args))
       [VRef service_loc; VStr "ping"] [] false stopped_world
     = refused SyftBoxNotRunningError
         "Local SyftBox is not running. Cannot send RPC request." stopped_world.
Proof.
  split; [vm_compute; reflexivity|].
  apply (ensure_syftbox_running_not_running "send_rpc" None count_args
           (VRef service_loc) (VRef client_loc));
    vm_compute; reflexivity.
Defined.

Lemma ensure_syftbox_running_passes_witness :
  readiness running_world (VRef client_loc) = Return true
  /\ invoke (ensure_syftbox_running (operation "send_rpc" None true count_args))
       [VRef service_loc; VStr "ping"] [("timeout", VInt 5)] false running_world
     = handed_on count_args [VRef service_loc; VStr "ping"] [("timeout", VInt 5)]
         running_world
         [EvCall [VRef service_loc; VStr "ping"] [("timeout", VInt 5)]; EvAwait].
Proof.
  split; [vm_compute; reflexivity|].
  apply (ensure_syftbox_running_passes "send_rpc" None count_args
           (VRef service_loc) (VRef client_loc));
    vm_compute; reflexivity.
Defined.

Lemma require_account_transparent_witness :
  attrs_of running_world (VRef service_loc) !! "_account_configured" = Some (VBool true)
  /\ invoke (require_account (operation "search" None false mark_and_fail))
       [VRef service_loc] [] false running_world
     = handed_on mark_and_fail [VRef service_loc] [] running_world
         (called_once false [VRef service_loc] []).
Proof.
  split; [vm_compute; reflexivity|].
  apply (require_account_transparent "search" None false mark_and_fail (VRef service_loc)).
  vm_compute. reflexivity.
Defined.

Lemma ensure_syftbox_running_invalid_client_witness :
  attrs_of running_world (VRef bare_loc) !! "syft_client" = Some (VStr "client")
  /\ invoke (ensure_syftbox_running (operation "send_rpc" None true count_args))
       [VRef bare_loc] [] false running_world
     = refused AttributeError
         ("Service instance " +:+ class_name running_world (VRef bare_loc)
            +:+ " lacks a valid 'syft_client' attribute.") running_world.
Proof.
  split; [vm_compute; reflexivity|].
  apply (ensure_syftbox_running_invalid_client "send_rpc" None count_args (VRef bare_loc)).
  right. exists (VStr "client"). split; vm_compute; reflexivity.
Defined.

Lemma guards_only_read_witness :
  guarded_fields (mark_and_fail [VRef service_loc] [] running_world).2 (VRef service_loc)
  = guarded_fields running_world (VRef service_loc)
  /\ guarded_fields
       (world_of (invoke (ensure_syftbox_running (operation "chat" None true mark_and_fail))
                    [VRef service_loc] [] false running_world)) (VRef service_loc)
     = guarded_fields running_world (VRef service_loc).
Proof.
  split; [vm_compute; reflexivity|].
  apply (guards_only_read "chat" None true mark_and_fail (VRef service_loc) [] [] false
           running_world).
  vm_compute. reflexivity.
Defined.


(** * Beyond the guards one at a time *)

(** ** Runs of asynchronous functions *)

Lemma invoke_async_def
    (name : string) (doc : option string) (body : list value -> kwargs -> M value)
    (args : list value) (kw : kwargs) (in_loop : bool) (w : world) :
  invoke (async_def name doc body) args kw in_loop w = lift_direct (body args kw in_loop w).
Proof.
  unfold invoke, async_def, lift_direct, fn_call. run_monad.
  destruct (body args kw in_loop w) as [[[v|e] w'] t]; cbn; [|reflexivity].
  now rewrite app_nil_r.
Qed.

Lemma call_await_async_def
    (name : string) (doc : option string) (body : list value -> kwargs -> M value)
    (args : list value) (kw : kwargs) (in_loop : bool) (w : world) :
  (r ← (r ← call (async_def name doc body) args kw; await r); mret (Direct r)) in_loop w
  = preceded_by [EvCall args kw; EvAwait] (invoke (async_def name doc body) args kw in_loop w).
Proof.
  rewrite invoke_async_def.
  unfold async_def, call, await, preceded_by, lift_direct, fn_call. run_monad.
  destruct (body args kw in_loop w) as [[[v|e] w'] t]; cbn; [|reflexivity].
  now rewrite app_nil_r.
Qed.

(** The availability guard always gives an [async def], whatever it wraps. *)
Lemma ensure_syftbox_running_async_def (func : pyfunc) :
  exists body, ensure_syftbox_running func = async_def (fn_name func) (fn_doc func) body.
Proof. eexists. reflexivity. Qed.

Lemma require_account_async_def (func : pyfunc) :
  fn_async func = true ->
  exists body, require_account func = async_def (fn_name func) (fn_doc func) body.
Proof.
  intros H. unfold require_account, iscoroutinefunction. rewrite H.
  eexists. reflexivity.
Qed.

(** The authorization guard over any [async def]. *)
Lemma require_account_over_async
    (name : string) (doc : option string) (body : list value -> kwargs -> M value)
    (self : value) (rest : list value) (kw : kwargs) (in_loop : bool) (w : world) :
  invoke (require_account (async_def name doc body)) (self :: rest) kw in_loop w
  = match account_error w self with
    | Some e => (Raise e, w, [])
    | None =>
        preceded_by [EvCall (self :: rest) kw; EvAwait]
          (invoke (async_def name doc body) (self :: rest) kw in_loop w)
    end.
Proof.
  rewrite invoke_async_def.
  unfold invoke, require_account, iscoroutinefunction, account_error, async_def, with_self,
    call, await, preceded_by, lift_direct, fn_call, fn_async.
  run_monad.
  destruct (truthy w (getattr_default w self "_account_configured" (VBool false)))
    as [[|]|e0]; cbn; [|reflexivity..].
  destruct (body (self :: rest) kw in_loop w) as [[[v|e] w'] t]; cbn; [|reflexivity].
  now rewrite !app_nil_r.
Qed.

(** The availability guard over any [async def]. *)
Lemma ensure_syftbox_running_over_async
    (name : string) (doc : option string) (body : list value -> kwargs -> M value)
    (inst : value) (rest : list value) (kw : kwargs) (in_loop : bool) (w : world) :
  invoke (ensure_syftbox_running (async_def name doc body)) (inst :: rest) kw in_loop w
  = match availability_error w inst with
    | Some e => (Raise e, w, [])
    | None =>
        preceded_by [EvCall (inst :: rest) kw; EvAwait]
          (invoke (async_def name doc body) (inst :: rest) kw in_loop w)
    end.
Proof.
  rewrite ensure_syftbox_running_decides, call_await_async_def.
  unfold availability_error, refused.
  destruct (attrs_of w inst !! "syft_client") as [client|]; [|reflexivity].
  destruct (isinstance_SyftClient w client); [|reflexivity].
  destruct (readiness w client) as [[|]|e]; reflexivity.
Qed.

(** ** Stacked guards *)

Lemma stack_account_outer
    (name : string) (doc : option string) (b : behaviour)
    (inst : value) (rest : list value) (kw : kwargs) (in_loop : bool) (w : world) :
  invoke (require_account (ensure_syftbox_running (operation name doc true b)))
    (inst :: rest) kw in_loop w
  = match account_error w inst, availability_error w inst with
    | Some e, _ => (Raise e, w, [])
    | None, Some e => (Raise e, w, [EvCall (inst :: rest) kw; EvAwait])
    | None, None =>
        handed_on b (inst :: rest) kw w
          [EvCall (inst :: rest) kw; EvAwait; EvCall (inst :: rest) kw; EvAwait]
    end.
Proof.
  destruct (ensure_syftbox_running_async_def (operation name doc true b)) as [body E].
  rewrite E, require_account_over_async, <- E.
  destruct (account_error w inst); [reflexivity|].
  unfold operation at 1. rewrite ensure_syftbox_running_over_async.
  destruct (availability_error w inst); [reflexivity|].
  fold (operation name doc true b). rewrite operation_invoked. reflexivity.
Qed.

Lemma stack_availability_outer
    (name : string) (doc : option string) (b : behaviour)
    (inst : value) (rest : list value) (kw : kwargs) (in_loop : bool) (w : world) :
  invoke (ensure_syftbox_running (require_account (operation name doc true b)))
    (inst :: rest) kw in_loop w
  = match availability_error w inst, account_error w inst with
    | Some e, _ => (Raise e, w, [])
    | None, Some e => (Raise e, w, [EvCall (inst :: rest) kw; EvAwait])
    | None, None =>
        handed_on b (inst :: rest) kw w
          [EvCall (inst :: rest) kw; EvAwait; EvCall (inst :: rest) kw; EvAwait]
    end.
Proof.
  destruct (require_account_async_def (operation name doc true b) eq_refl) as [body E].
  rewrite E, ensure_syftbox_running_over_async, <- E.
  destruct (availability_error w inst); [reflexivity|].
  unfold operation at 1. rewrite require_account_over_async.
  destruct (account_error w inst); [reflexivity|].
  fold (operation name doc true b). rewrite operation_invoked. reflexivity.
Qed.

(** X1. With both guards on one asynchronous method, the outer one checks
    first: when it refuses, its error is raised and the inner guard's checks
    are not reached; when it passes and the inner one refuses, the inner
    one's error is raised; the method runs, once and on the original
    arguments, only when both pass.  The world changes in that last case
    only. *)
Theorem outer_guard_checks_first :
  forall (name : string) (doc : option string) (b : behaviour)
         (inst : value) (rest : list value) (kw : kwargs) (in_loop : bool) (w : world),
    let O := operation name doc true b in
    let args := inst :: rest in
    let through := [EvCall args kw; EvAwait] in
    invoke (require_account (ensure_syftbox_running O)) args kw in_loop w
    = match account_error w inst, availability_error w inst with
      | Some e, _ => (Raise e, w, [])
      | None, Some e => (Raise e, w, through)
      | None, None => handed_on b args kw w (through ++ through)
      end
    /\ invoke (ensure_syftbox_running (require_account O)) args kw in_loop w
       = match availability_error w inst, account_error w inst with
         | Some e, _ => (Raise e, w, [])
         | None, Some e => (Raise e, w, through)
         | None, None => handed_on b args kw w (through ++ through)
         end.
Proof.
  intros. subst O args through. split.
  - apply stack_account_outer.
  - apply stack_availability_outer.
Qed.

(** X2. The order in which the two guards are stacked shows only when both
    refuse: if at least one of them passes, both orders give the same result
    (value or error) and leave the same world. *)
Theorem guard_order_agrees :
  forall (name : string) (doc : option string) (b : behaviour)
         (inst : value) (rest : list value) (kw : kwargs) (in_loop : bool) (w : world),
    account_error w inst = None \/ availability_error w inst = None ->
    let O := operation name doc true b in
    let account_first :=
      invoke (require_account (ensure_syftbox_running O)) (inst :: rest) kw in_loop w in
    let availability_first :=
      invoke (ensure_syftbox_running (require_account O)) (inst :: rest) kw in_loop w in
    result_of account_first = result_of availability_first
    /\ world_of account_first = world_of availability_first.
Proof.
  intros name doc b inst rest kw in_loop w H O account_first availability_first.
  subst O account_first availability_first.
  rewrite stack_account_outer, stack_availability_outer.
  destruct H as [H | H]; rewrite H.
  - destruct (availability_error w inst); split; reflexivity.
  - destruct (account_error w inst); split; reflexivity.
Qed.

(** X3. Guarding twice is guarding once: an operation under two
    [require_account], or two [ensure_syftbox_running], has the result and
    the final world it has under one. *)
Theorem guards_idempotent :
  forall (name : string) (doc : option string) (is_async : bool) (b : behaviour)
         (inst : value) (rest : list value) (kw : kwargs) (in_loop : bool) (w : world),
    seen (invoke (require_account (require_account (operation name doc is_async b)))
            (inst :: rest) kw in_loop w)
    = seen (invoke (require_account (operation name doc is_async b))
              (inst :: rest) kw in_loop w)
    /\ seen (invoke (ensure_syftbox_running (ensure_syftbox_running (operation name doc true b)))
               (inst :: rest) kw in_loop w)
       = seen (invoke (ensure_syftbox_running (operation name doc true b))
                 (inst :: rest) kw in_loop w).
Proof.
  intros name doc is_async b inst rest kw in_loop w. unfold seen. split.
  - destruct is_async.
    + assert (invoke (require_account (require_account (operation name doc true b)))
                (inst :: rest) kw in_loop w
              = match account_error w inst with
                | Some e => (Raise e, w, [])
                | None =>
                    preceded_by [EvCall (inst :: rest) kw; EvAwait]
                      (invoke (require_account (operation name doc true b))
                         (inst :: rest) kw in_loop w)
                end) as ->.
      { destruct (require_account_async_def (operation name doc true b) eq_refl) as [body E].
        rewrite E. apply require_account_over_async. }
      rewrite require_account_decides. unfold account_error.
      destruct (truthy w (getattr_default w inst "_account_configured" (VBool false)))
        as [[|]|e0]; reflexivity.
    + rewrite require_account_decides.
      unfold invoke, require_account, iscoroutinefunction, operation, handed_on, refused,
        def, with_self, call, run_body, fn_call, fn_async.
      run_monad.
      destruct (truthy w (getattr_default w inst "_account_configured" (VBool false)))
        as [[|]|e0] eqn:Ht; cbn; rewrite ?Ht; cbn; [|reflexivity..].
      destruct (b (inst :: rest) kw w) as [[v|e] w']; reflexivity.
  - assert (invoke (ensure_syftbox_running (ensure_syftbox_running (operation name doc true b)))
              (inst :: rest) kw in_loop w
            = match availability_error w inst with
              | Some e => (Raise e, w, [])
              | None =>
                  preceded_by [EvCall (inst :: rest) kw; EvAwait]
                    (invoke (ensure_syftbox_running (operation name doc true b))
                       (inst :: rest) kw in_loop w)
              end) as ->.
    { destruct (ensure_syftbox_running_async_def (operation name doc true b)) as [body E].
      rewrite E. apply ensure_syftbox_running_over_async. }
    unfold operation. rewrite ensure_syftbox_running_over_async.
    destruct (availability_error w inst); reflexivity.
Qed.

(** ** The availability guard on a synchronous function *)

(** X4. [ensure_syftbox_running] makes a coroutine function of whatever it
    wraps, and awaits whatever the wrapped function returns.  Around a
    synchronous function, a call that passes the checks does call the
    function, once, and keeps what it did to the world.  A returned value that
    is not awaitable gives the caller a [TypeError] in its place; a returned
    awaitable is awaited as usual, be it an instance with [__await__] or the
    coroutine that the adaptive wrapper returns inside a loop.  An error the
    function raises comes through as it is. *)
Theorem ensure_syftbox_running_sync_function :
  forall (name : string) (doc : option string) (b : behaviour)
         (inst : value) (rest : list value) (kw : kwargs) (in_loop : bool) (w : world),
    availability_error w inst = None ->
    let args := inst :: rest in
    let guarded := ensure_syftbox_running (operation name doc false b) in
    let run := invoke guarded args kw in_loop w in
    iscoroutinefunction guarded = true
    /\ world_of run = (b args kw w).2
    /\ match (b args kw w).1 with
       | Return v =>
           match await_method (b args kw w).2 v with
           | Some resolved =>
               result_of run = outcome_map Direct resolved
               /\ trace_of run = [EvCall args kw; EvAwait]
           | None =>
               (exists msg, result_of run = Raise (Exn TypeError msg))
               /\ trace_of run = [EvCall args kw]
           end
       | Raise e => result_of run = Raise e /\ trace_of run = [EvCall args kw]
       end
    /\ invoke (ensure_syftbox_running (smart_async_wrapper (operation name doc true b)))
         args kw true w
       = handed_on b args kw w [EvCall args kw; EvCall args kw; EvAwait].
Proof.
  intros name doc b inst rest kw in_loop w H args guarded run. subst args guarded run.
  split; [reflexivity|].
  rewrite !ensure_syftbox_running_decides.
  unfold availability_error in H.
  destruct (attrs_of w inst !! "syft_client") as [client|]; [|discriminate].
  destruct (isinstance_SyftClient w client); [|discriminate].
  destruct (readiness w client) as [[|]|e]; try discriminate.
  unfold smart_async_wrapper, operation, async_def, def, with_self, detect_async_context,
    call, await, run_body, handed_on, fn_call, result_of, world_of, trace_of.
  run_monad.
  destruct (b (inst :: rest) kw w) as [[v|e] w']; cbn; [|repeat split].
  destruct (await_method w' v) as [[x|e]|]; cbn; repeat split; eauto.
Qed.

(** ** One call after another *)

(** X5. The guard keeps nothing from one call to the next: of two guarded
    calls on an instance, the second is decided on [_account_configured] as
    the first operation left it.  It is refused after an operation that
    cleared the flag, although the first call passed; and it is not reached
    when the first call was refused or its operation raised. *)
Theorem require_account_checked_at_each_call :
  forall (name1 name2 : string) (doc1 doc2 : option string) (async1 async2 : bool)
         (b1 b2 : behaviour) (self : value) (rest1 rest2 : list value) (kw1 kw2 : kwargs)
         (in_loop : bool) (w : world),
    let first := require_account (operation name1 doc1 async1 b1) in
    let second := require_account (operation name2 doc2 async2 b2) in
    let done1 := called_once async1 (self :: rest1) kw1 in
    (invoke first (self :: rest1) kw1;; invoke second (self :: rest2) kw2) in_loop w
    = match account_error w self with
      | Some e => (Raise e, w, [])
      | None =>
          match b1 (self :: rest1) kw1 w with
          | (Raise e, w1) => (Raise e, w1, done1)
          | (Return _, w1) =>
              match account_error w1 self with
              | Some e => (Raise e, w1, done1)
              | None =>
                  handed_on b2 (self :: rest2) kw2 w1
                    (done1 ++ called_once async2 (self :: rest2) kw2)
              end
          end
      end.
Proof.
  intros. subst first second done1.
  unfold mbind at 1. unfold M_bind.
  rewrite require_account_decides. unfold account_error, handed_on, refused.
  destruct (truthy w (getattr_default w self "_account_configured" (VBool false)))
    as [[|]|e0]; [|reflexivity..].
  destruct (b1 (self :: rest1) kw1 w) as [[v1|e1] w1]; cbn; [|reflexivity].
  rewrite require_account_decides. unfold handed_on, refused.
  destruct (truthy w1 (getattr_default w1 self "_account_configured" (VBool false)))
    as [[|]|e0]; cbn; [reflexivity|now rewrite app_nil_r..].
Qed.

(** ** Names of the adapters *)

Lemma append_cancel_r (s1 s2 t : string) : s1 +:+ t = s2 +:+ t -> s1 = s2.
Proof.
  revert s2. induction s1 as [|c s1 IH]; intros [|d s2] H.
  - reflexivity.
  - apply (f_equal String.length) in H.
    rewrite append_empty_l, length_append in H. cbn [String.length] in H. lia.
  - apply (f_equal String.length) in H.
    rewrite append_empty_l, length_append in H. cbn [String.length] in H. lia.
  - rewrite !append_String in H. injection H as -> H. f_equal. now apply IH.
Qed.

Lemma prefix_nonempty_empty (old : string) : old <> "" -> String.prefix old "" = false.
Proof. destruct old; [congruence | reflexivity]. Qed.

(** Taking occurrences out never makes a string longer. *)
Lemma replace_from_length_le (old : string) (fuel : nat) (s : string) :
  old <> "" ->
  (String.length (replace_from fuel old "" s) <= String.length s)%nat.
Proof.
  intros Hold. revert s. induction fuel as [|fuel IH]; intros s; [reflexivity|].
  destruct s as [|c s]; [reflexivity|].
  cbn [replace_from]. destruct (String.prefix old (String c s)).
  - rewrite append_empty_l. destruct old as [|d old]; [congruence|].
    cbn [String.length drop_str].
    pose proof (IH (drop_str (String.length old) s)).
    pose proof (length_drop_str (String.length old) s). lia.
  - cbn [String.length]. specialize (IH s). lia.
Qed.

(** Where there is an occurrence, taking them out makes it shorter. *)
Lemma replace_from_shrinks (old : string) (fuel : nat) (s : string) :
  old <> "" ->
  str_contains old s = true ->
  (String.length s <= fuel)%nat ->
  (String.length (replace_from fuel old "" s) < String.length s)%nat.
Proof.
  intros Hold. revert s. induction fuel as [|fuel IH]; intros s Hc Hlen.
  - destruct s; [|cbn in Hlen; lia].
    cbn [str_contains] in Hc.
    rewrite prefix_nonempty_empty in Hc by assumption. discriminate.
  - destruct s as [|c s].
    + cbn [str_contains] in Hc.
      rewrite prefix_nonempty_empty in Hc by assumption. discriminate.
    + cbn [replace_from]. cbn [str_contains] in Hc.
      destruct (String.prefix old (String c s)) eqn:Hp.
      * rewrite append_empty_l. destruct old as [|d old]; [congruence|].
        cbn [String.length drop_str].
        pose proof (replace_from_length_le (String d old) fuel
                      (drop_str (String.length old) s) Hold).
        pose proof (length_drop_str (String.length old) s). lia.
      * cbn [orb] in Hc. cbn [String.length] in *.
        specialize (IH s Hc). lia.
Qed.

(** X6. The blocking wrapper never takes the name of the method it wraps,
    and methods with different names get blocking wrappers with different
    names. *)
Theorem make_sync_wrapper_names_apart :
  forall f g : pyfunc,
    fn_name (make_sync_wrapper f) <> fn_name f
    /\ (fn_name (make_sync_wrapper f) = fn_name (make_sync_wrapper g) ->
        fn_name f = fn_name g).
Proof.
  intros f g. unfold make_sync_wrapper, def; cbn [fn_name]. split.
  - intros H. apply (f_equal String.length) in H.
    rewrite length_append in H. cbn in H. lia.
  - apply append_cancel_r.
Qed.

(** X7. The adaptive wrapper has the name of the method it wraps exactly
    when that name has no "_async" in it; otherwise its name is shorter.  It
    is never longer. *)
Theorem smart_async_wrapper_name_kept_iff :
  forall f : pyfunc,
    (fn_name (smart_async_wrapper f) = fn_name f
     <-> str_contains "_async" (fn_name f) = false)
    /\ (String.length (fn_name (smart_async_wrapper f)) <= String.length (fn_name f))%nat.
Proof.
  intros f. unfold smart_async_wrapper, def, str_replace; cbn [fn_name]. split.
  - split.
    + intros H. destruct (str_contains "_async" (fn_name f)) eqn:Hc; [|reflexivity].
      pose proof (replace_from_shrinks "_async" (String.length (fn_name f)) (fn_name f)) as L.
      rewrite H in L. specialize (L ltac:(discriminate) Hc ltac:(lia)). lia.
    + apply replace_from_absent.
  - apply replace_from_length_le. discriminate.
Qed.

(** ** Adapters over guarded methods *)

(** X8. Where the account check falls when an asynchronous method is both
    guarded and made adaptive, for an instance the guard refuses.  With the
    guard inside the adaptive wrapper, a call made while a loop is running
    returns an awaitable and raises nothing; the [AuthenticationError] comes
    when the awaitable is run.  With the guard outside, the call itself
    raises.  With no loop running, the call raises either way.  The method
    is never called. *)
Theorem account_check_call_or_await :
  forall (name : string) (doc : option string) (b : behaviour)
         (self : value) (rest : list value) (kw : kwargs) (w : world),
    truthy w (getattr_default w self "_account_configured" (VBool false)) = Return false ->
    let O := operation name doc true b in
    let args := self :: rest in
    (exists c : coroutine,
        fn_call (smart_async_wrapper (require_account O)) args kw true w
        = (Return (Awaitable c), w, [EvCall args kw])
        /\ forall in_loop, c in_loop w = (denied, w, []))
    /\ fn_call (require_account (smart_async_wrapper O)) args kw true w = (denied, w, [])
    /\ fn_call (smart_async_wrapper (require_account O)) args kw false w
       = (denied, w, [EvCall args kw])
    /\ fn_call (require_account (smart_async_wrapper O)) args kw false w = (denied, w, []).
Proof.
  intros name doc b self rest kw w H O args. subst O args.
  unfold denied, smart_async_wrapper, require_account, iscoroutinefunction, operation, async_def,
    def, with_self, detect_async_context, run_async_in_thread, call, fn_call, fn_async.
  run_monad. rewrite H. cbn.
  split; [|repeat split].
  eexists. split; [reflexivity|].
  intros in_loop. cbn. rewrite H. reflexivity.
Qed.

(** X9. The blocking wrapper does not look at the calling context: with or
    without a loop running on the thread, it calls the asynchronous method
    once, runs it to its end and gives the value, or raises the error, itself.
    Around a guarded method it raises the guard's error in the same way, the
    method not called.  It is not a coroutine function. *)
Theorem make_sync_wrapper_blocks_everywhere :
  forall (name : string) (doc : option string) (b : behaviour)
         (self : value) (rest : list value) (kw : kwargs) (in_loop : bool) (w : world),
    let O := operation name doc true b in
    let args := self :: rest in
    fn_call (make_sync_wrapper O) args kw in_loop w = handed_on b args kw w [EvCall args kw]
    /\ fn_call (make_sync_wrapper (require_account O)) args kw in_loop w
       = match account_error w self with
         | Some e => (Raise e, w, [EvCall args kw])
         | None => handed_on b args kw w [EvCall args kw; EvCall args kw; EvAwait]
         end
    /\ iscoroutinefunction (make_sync_wrapper O) = false.
Proof.
  intros name doc b self rest kw in_loop w O args. subst O args.
  unfold make_sync_wrapper, require_account, iscoroutinefunction, account_error, operation,
    async_def, def, with_self, run_async_in_thread, call, await, run_body, handed_on,
    fn_call, fn_async.
  run_monad.
  repeat split.
  - destruct (b (self :: rest) kw w) as [[v|e] w']; reflexivity.
  - destruct (truthy w (getattr_default w self "_account_configured" (VBool false)))
      as [[|]|e0]; cbn; [|reflexivity..].
    destruct (b (self :: rest) kw w) as [[v|e] w']; reflexivity.
Qed.

(** X10. The guards pass [__name__] and [__doc__] through, so an adapter
    put over guarded methods is named after the method itself; and whatever
    [ensure_syftbox_running] wraps, [require_account] on top of it takes the
    asynchronous wrapper. *)
Theorem guards_keep_metadata :
  forall func : pyfunc,
    let guarded := require_account (ensure_syftbox_running func) in
    fn_name (ensure_syftbox_running func) = fn_name func
    /\ fn_doc (ensure_syftbox_running func) = fn_doc func
    /\ fn_name (require_account func) = fn_name func
    /\ fn_doc (require_account func) = fn_doc func
    /\ iscoroutinefunction guarded = true
    /\ fn_name (make_sync_wrapper guarded) = fn_name func +:+ "_sync"
    /\ fn_name (smart_async_wrapper guarded) = str_replace "_async" "" (fn_name func).
Proof.
  intros func guarded. subst guarded.
  unfold require_account, iscoroutinefunction.
  destruct (fn_async func); repeat split.
Qed.

(** X11. The adaptive wrapper around a synchronous function, called while a
    loop is running: the call runs the function there and then, and what
    comes back is what the function returned, or its error, as it is; no
    coroutine is made for it. *)
Theorem smart_async_wrapper_sync_function_in_loop :
  forall (name : string) (doc : option string) (b : behaviour)
         (self : value) (rest : list value) (kw : kwargs) (w : world),
    fn_call (smart_async_wrapper (operation name doc false b)) (self :: rest) kw true w
    = handed_on b (self :: rest) kw w [EvCall (self :: rest) kw].
Proof.
  intros name doc b self rest kw w.
  unfold smart_async_wrapper, operation, def, with_self, detect_async_context, call,
    run_body, handed_on, fn_call.
  run_monad.
  destruct (b (self :: rest) kw w) as [[v|e] w']; reflexivity.
Qed.

(** ** The further statements at work *)

(** Signing out through a guarded method, then asking for the models: the
    second call is refused, in the world the first one left. *)
Example signed_out_then_refused :
  let run :=
    (invoke (require_account (operation "sign_out" None true sign_out))
       [VRef service_loc] [];;
     invoke (require_account (operation "models" None false count_args))
       [VRef service_loc] []) false running_world in
  result_of run = denied
  /\ attrs_of (world_of run) (VRef service_loc) !! "_account_configured" = Some (VBool false)
  /\ trace_of run = [EvCall [VRef service_loc] []; EvAwait].
Proof. vm_compute. repeat split. Qed.

(** Both guards on [send_rpc], SyftBox stopped and the account not set up:
    each order reports the outer guard's error. *)
Example both_refuse_outer_reported :
  let O := operation "send_rpc" None true count_args in
  result_of (invoke (require_account (ensure_syftbox_running O)) [VRef stale_loc] []
               false stopped_world) = denied
  /\ result_of (invoke (ensure_syftbox_running (require_account O)) [VRef stale_loc] []
                  false stopped_world)
     = Raise (Exn SyftBoxNotRunningError
                "Local SyftBox is not running. Cannot send RPC request.").
Proof. vm_compute. split; reflexivity. Qed.

(** A synchronous method under the availability guard: the future it hands
    out is awaited, the number it returns is not awaitable. *)
Example sync_method_results_awaited :
  seen (invoke (ensure_syftbox_running (operation "pending" None false hand_future))
          [VRef service_loc] [] false running_world)
  = (Return (Direct (VStr "pong")), running_world)
  /\ seen (invoke (ensure_syftbox_running (operation "models" None false count_args))
             [VRef service_loc] [] false running_world)
     = (Raise (Exn TypeError "object int can't be used in 'await' expression"),
        running_world).
Proof. split; vm_compute; reflexivity. Qed.

Lemma guard_order_agrees_witness :
  availability_error running_world (VRef stale_loc) = None
  /\ result_of (invoke (require_account (ensure_syftbox_running
                                           (operation "send_rpc" None true count_args)))
                  [VRef stale_loc] [] false running_world)
     = result_of (invoke (ensure_syftbox_running (require_account
                                           (operation "send_rpc" None true count_args)))
                  [VRef stale_loc] [] false running_world).
Proof.
  split; [vm_compute; reflexivity|].
  apply (guard_order_agrees "send_rpc" None count_args (VRef stale_loc) [] [] false
           running_world).
  right. vm_compute. reflexivity.
Defined.

Lemma ensure_syftbox_running_sync_function_witness :
  availability_error running_world (VRef service_loc) = None
  /\ trace_of (invoke (ensure_syftbox_running (operation "models" None false count_args))
                 [VRef service_loc] [] false running_world)
     = [EvCall [VRef service_loc] []].
Proof.
  split; [vm_compute; reflexivity|].
  apply (ensure_syftbox_running_sync_function "models" None count_args (VRef service_loc)
           [] [] false running_world).
  vm_compute. reflexivity.
Defined.

Lemma make_sync_wrapper_names_apart_witness :
  fn_name (operation "chat_async" None true count_args)
  = fn_name (operation "chat_async" (Some "Chats.") true mark_and_fail).
Proof.
  apply (make_sync_wrapper_names_apart
           (operation "chat_async" None true count_args)
           (operation "chat_async" (Some "Chats.") true mark_and_fail)).
  reflexivity.
Defined.

Lemma smart_async_wrapper_name_kept_iff_witness :
  fn_name (smart_async_wrapper (operation "chat" None true count_args))
  = fn_name (operation "chat" None true count_args).
Proof.
  apply (smart_async_wrapper_name_kept_iff (operation "chat" None true count_args)).
  reflexivity.
Defined.

Lemma account_check_call_or_await_witness :
  truthy running_world
    (getattr_default running_world (VRef stale_loc) "_account_configured" (VBool false))
  = Return false
  /\ fn_call (require_account (smart_async_wrapper (operation "chat_async" None true count_args)))
       [VRef stale_loc] [] true running_world
     = (denied, running_world, []).
Proof.
  split; [vm_compute; reflexivity|].
  apply (account_check_call_or_await "chat_async" None count_args (VRef stale_loc) [] []
           running_world).
  vm_compute. reflexivity.
Defined.
